(** * torch/ao/quantization/backend_config/onednn.py

    A shallow embedding of the ONEDNN backend configuration file: the
    five [DTypeConfig] constants, the fuser method
    [_fuse_linear_bn_leaky_relu], the pattern expansion helper
    [_add_eltwise_fusion_configs], the module-level construction of
    [conv_configs] and [linear_configs], and [get_onednn_backend_config].

    Python lists that the file mutates ([configs.append]) are the state of
    a state monad; the fuser method runs in an exception monad that also
    records the calls it makes to code outside the file. *)

From Stdlib Require Import Ascii String List Bool Arith.
From ExtLib Require Import Structures.Monad Structures.MonadState.
From ExtLib Require Import Data.Monads.StateMonad.
Import ListNotations.
Import MonadNotation.
Local Open Scope string_scope.
Local Open Scope list_scope.
Local Open Scope monad_scope.

Set Implicit Arguments.

(* ===================================================================== *)
(** ** Python objects the file names                                      *)
(* ===================================================================== *)

(** [torch.quint8], [torch.qint8], [torch.float]. *)
Inductive dtype : Type :=
| torch_quint8
| torch_qint8
| torch_float.

(** Classes and functions that occur as pattern elements, dictionary keys
    or runtime types.  [Subclass n b] is a class named [n] declared with
    base [b]; [Named q] is any other object, known by its qualified name. *)
Inductive PyObj : Type :=
| nn_Linear
| nn_BatchNorm1d
| nn_LeakyReLU
| nn_Tanh
| nni_LinearLeakyReLU
| nni_LinearTanh
| nnqr_Linear
| F_linear
| F_leaky_relu
| torch_tanh
| Subclass (name : string) (base : PyObj)
| Named (qualname : string).

Definition PyObj_eq_dec (a b : PyObj) : {a = b} + {a <> b}.
Proof. decide equality; apply string_dec. Defined.

(** [issubclass(t, u)] along the declared base chain. *)
Fixpoint issubclass (t u : PyObj) : bool :=
  if PyObj_eq_dec t u then true
  else match t with
       | Subclass _ base => issubclass base u
       | _ => false
       end.

(** [ObservationType] (imported from [.backend_config]). *)
Inductive ObservationType : Type :=
| OUTPUT_USE_DIFFERENT_OBSERVER_AS_INPUT
| OUTPUT_SHARE_OBSERVER_WITH_INPUT
| INPUT_OUTPUT_NOT_OBSERVED.

(* ===================================================================== *)
(** ** DTYPE CONFIGS                                                      *)
(* ===================================================================== *)

(** Modelled from the spec: the [DTypeConfig] class is declared in
    [backend_config.py], outside this file.  It "records the expected
    numeric representation for an operator's input, output, weight, and
    bias slots, plus a flag" for dynamic quantization; a keyword argument
    that a constructor call leaves out is [None]. *)
Record DTypeConfig : Type := mkDTypeConfig {
  input_dtype : option dtype;
  output_dtype : option dtype;
  weight_dtype : option dtype;
  bias_dtype : option dtype;
  is_dynamic : option bool
}.

Definition onednn_weighted_op_int8_dtype_config : DTypeConfig :=
  {| input_dtype := Some torch_quint8;
     output_dtype := Some torch_quint8;
     weight_dtype := Some torch_qint8;
     bias_dtype := Some torch_float;
     is_dynamic := None |}.

Definition onednn_op_quint8_dtype_config : DTypeConfig :=
  {| input_dtype := Some torch_quint8;
     output_dtype := Some torch_quint8;
     weight_dtype := None;
     bias_dtype := None;
     is_dynamic := None |}.

Definition onednn_dynamic_int8_dtype_config : DTypeConfig :=
  {| input_dtype := Some torch_quint8;
     output_dtype := Some torch_float;
     weight_dtype := Some torch_qint8;
     bias_dtype := Some torch_float;
     is_dynamic := Some true |}.

Definition onednn_weight_only_qint8_dtype_config : DTypeConfig :=
  {| input_dtype := Some torch_float;
     output_dtype := Some torch_float;
     weight_dtype := Some torch_qint8;
     bias_dtype := None;
     is_dynamic := None |}.

Definition onednn_input_output_only_quint8_dtype_config : DTypeConfig :=
  {| input_dtype := Some torch_quint8;
     output_dtype := Some torch_quint8;
     weight_dtype := Some torch_float;
     bias_dtype := Some torch_float;
     is_dynamic := None |}.

(* ===================================================================== *)
(** ** Pattern descriptors and the backend descriptor                     *)
(* ===================================================================== *)

(** The argument of [BackendPatternConfig(...)]: one object, or a tuple. *)
Inductive Pattern : Type :=
| POp (op : PyObj)
| PTuple (ops : list PyObj).

(** What [.set_fuser_method] receives in this file: the result of
    [_sequential_wrapper2(cls)] (imported from [fuser_method_mappings]),
    or the function [_fuse_linear_bn_leaky_relu] defined below. *)
Inductive FuserMethod : Type :=
| _sequential_wrapper2 (sequential : PyObj)
| fuser_fuse_linear_bn_leaky_relu
| fuser_named (qualname : string).

(** Modelled from the spec: the [BackendPatternConfig] builder class is
    declared in [backend_config.py], outside this file.  It "associates an
    operator or sequence of operators with: the set of legal
    data-type-combination descriptors, an observation strategy, an optional
    fusion function, an optional fused-module identity, an optional root
    module, and an optional reference-quantized-module identity".  The
    observation strategy starts at the class default,
    [OUTPUT_USE_DIFFERENT_OBSERVER_AS_INPUT]; an optional slot no setter
    was called on is [None]; the list of dtype configs starts empty. *)
Record BackendPatternConfig : Type := mkBackendPatternConfig {
  cfg_pattern : Pattern;
  cfg_observation_type : ObservationType;
  cfg_dtype_configs : list DTypeConfig;
  cfg_root_module : option PyObj;
  cfg_reference_quantized_module : option PyObj;
  cfg_fused_module : option PyObj;
  cfg_fuser_method : option FuserMethod
}.

Definition new_BackendPatternConfig (pattern : Pattern) : BackendPatternConfig :=
  {| cfg_pattern := pattern;
     cfg_observation_type := OUTPUT_USE_DIFFERENT_OBSERVER_AS_INPUT;
     cfg_dtype_configs := [];
     cfg_root_module := None;
     cfg_reference_quantized_module := None;
     cfg_fused_module := None;
     cfg_fuser_method := None |}.

(** The fluent setters: each assigns one slot and returns the object. *)
Definition set_observation_type (observation_type : ObservationType)
    (self : BackendPatternConfig) : BackendPatternConfig :=
  {| cfg_pattern := cfg_pattern self;
     cfg_observation_type := observation_type;
     cfg_dtype_configs := cfg_dtype_configs self;
     cfg_root_module := cfg_root_module self;
     cfg_reference_quantized_module := cfg_reference_quantized_module self;
     cfg_fused_module := cfg_fused_module self;
     cfg_fuser_method := cfg_fuser_method self |}.

Definition set_dtype_configs (dtype_configs : list DTypeConfig)
    (self : BackendPatternConfig) : BackendPatternConfig :=
  {| cfg_pattern := cfg_pattern self;
     cfg_observation_type := cfg_observation_type self;
     cfg_dtype_configs := dtype_configs;
     cfg_root_module := cfg_root_module self;
     cfg_reference_quantized_module := cfg_reference_quantized_module self;
     cfg_fused_module := cfg_fused_module self;
     cfg_fuser_method := cfg_fuser_method self |}.

Definition set_root_module (root_module : PyObj)
    (self : BackendPatternConfig) : BackendPatternConfig :=
  {| cfg_pattern := cfg_pattern self;
     cfg_observation_type := cfg_observation_type self;
     cfg_dtype_configs := cfg_dtype_configs self;
     cfg_root_module := Some root_module;
     cfg_reference_quantized_module := cfg_reference_quantized_module self;
     cfg_fused_module := cfg_fused_module self;
     cfg_fuser_method := cfg_fuser_method self |}.

Definition set_reference_quantized_module (reference_quantized_module : PyObj)
    (self : BackendPatternConfig) : BackendPatternConfig :=
  {| cfg_pattern := cfg_pattern self;
     cfg_observation_type := cfg_observation_type self;
     cfg_dtype_configs := cfg_dtype_configs self;
     cfg_root_module := cfg_root_module self;
     cfg_reference_quantized_module := Some reference_quantized_module;
     cfg_fused_module := cfg_fused_module self;
     cfg_fuser_method := cfg_fuser_method self |}.

Definition set_fused_module (fused_module : PyObj)
    (self : BackendPatternConfig) : BackendPatternConfig :=
  {| cfg_pattern := cfg_pattern self;
     cfg_observation_type := cfg_observation_type self;
     cfg_dtype_configs := cfg_dtype_configs self;
     cfg_root_module := cfg_root_module self;
     cfg_reference_quantized_module := cfg_reference_quantized_module self;
     cfg_fused_module := Some fused_module;
     cfg_fuser_method := cfg_fuser_method self |}.

Definition set_fuser_method (fuser_method : FuserMethod)
    (self : BackendPatternConfig) : BackendPatternConfig :=
  {| cfg_pattern := cfg_pattern self;
     cfg_observation_type := cfg_observation_type self;
     cfg_dtype_configs := cfg_dtype_configs self;
     cfg_root_module := cfg_root_module self;
     cfg_reference_quantized_module := cfg_reference_quantized_module self;
     cfg_fused_module := cfg_fused_module self;
     cfg_fuser_method := Some fuser_method |}.

(** [obj .m(a)] is written [obj |> m a]. *)
Notation "self |> method" := (method self)
  (at level 45, left associativity, only parsing).

(** Modelled from the spec: the [BackendConfig] container is declared in
    [backend_config.py], outside this file.  It is "an ordered collection
    of pattern descriptors, keyed by backend name"; the two setters add
    one descriptor, or each descriptor of a list in order, and return the
    container. *)
Record BackendConfig : Type := mkBackendConfig {
  name : string;
  configs : list BackendPatternConfig
}.

Definition new_BackendConfig (name : string) : BackendConfig :=
  {| name := name; configs := [] |}.

Definition set_backend_pattern_config (config : BackendPatternConfig)
    (self : BackendConfig) : BackendConfig :=
  {| name := name self; configs := configs self ++ [config] |}.

Definition set_backend_pattern_configs (confs : list BackendPatternConfig)
    (self : BackendConfig) : BackendConfig :=
  fold_left (fun acc conf => acc |> set_backend_pattern_config conf) confs self.

(** The table builders imported from [._common_operator_config_utils]:
    each takes a list of dtype configs and returns ready-made pattern
    descriptors ([_get_cat_config] returns a single one). *)
Class CommonOperatorConfigUtils : Type := {
  _get_conv_configs : list DTypeConfig -> list BackendPatternConfig;
  _get_linear_configs : list DTypeConfig -> list BackendPatternConfig;
  _get_binary_op_configs : list DTypeConfig -> list BackendPatternConfig;
  _get_bn_configs : list DTypeConfig -> list BackendPatternConfig;
  _get_cat_config : list DTypeConfig -> BackendPatternConfig;
  _get_default_op_configs : list DTypeConfig -> list BackendPatternConfig;
  _get_embedding_op_configs : list DTypeConfig -> list BackendPatternConfig;
  _get_fixed_qparams_op_configs : list DTypeConfig -> list BackendPatternConfig;
  _get_ln_configs : list DTypeConfig -> list BackendPatternConfig;
  _get_rnn_op_configs : list DTypeConfig -> list BackendPatternConfig;
  _get_share_qparams_op_configs : list DTypeConfig -> list BackendPatternConfig
}.

(* ===================================================================== *)
(** ** CONFIGS FOR LINEAR: the eltwise expansion helper                   *)
(* ===================================================================== *)

(** [configs.append(x)] on the list the state monad carries. *)
Definition append {A : Type} (x : A) : state (list A) unit :=
  l <- get ;;
  put (l ++ [x]).

(** [_add_eltwise_fusion_configs(configs, ...)]: [configs] is the list in
    the state. *)
Definition _add_eltwise_fusion_configs
    (root_module root_op post_module post_op : PyObj)
    (dtype_configs : list DTypeConfig) (fuser_method : FuserMethod)
    (fused_module : PyObj) (observation_type : ObservationType)
    (ref_quant_module : PyObj) : state (list BackendPatternConfig) unit :=
  (* 1 base module + op module fusion config *)
  append
    (new_BackendPatternConfig (PTuple [root_module; post_module])
       |> set_dtype_configs dtype_configs
       |> set_fuser_method fuser_method
       |> set_fused_module fused_module) ;;
  (* base module + functional post op *)
  append
    (new_BackendPatternConfig (PTuple [root_module; post_op])
       |> set_dtype_configs dtype_configs
       |> set_fuser_method fuser_method
       |> set_fused_module fused_module) ;;
  (* 2 fused module configs *)
  append
    (new_BackendPatternConfig (POp fused_module)
       |> set_observation_type observation_type
       |> set_dtype_configs dtype_configs
       |> set_root_module root_module
       |> set_reference_quantized_module ref_quant_module) ;;
  (* 3 functional base op + post op configs *)
  append
    (new_BackendPatternConfig (PTuple [root_op; post_module])
       |> set_observation_type observation_type
       |> set_dtype_configs dtype_configs) ;;
  append
    (new_BackendPatternConfig (PTuple [root_op; post_op])
       |> set_observation_type observation_type
       |> set_dtype_configs dtype_configs).

(* ===================================================================== *)
(** ** FUSER METHODS                                                      *)
(* ===================================================================== *)

(** An [nn.Module] instance as the fuser method looks at it: its runtime
    type, its [training] flag, and the text [repr] prints for it. *)
Record Module : Type := mkModule {
  type : PyObj;
  training : bool;
  repr : string
}.

(** The object a class call [cls(arg1, arg2, ...)] creates. *)
Record Instance : Type := mkInstance {
  instance_class : PyObj;
  instance_args : list Module
}.

Inductive Exception : Type :=
| AssertionError (msg : string)
| NotImplementedError (msg : string)
| OtherError (kind msg : string).

Inductive Outcome (A : Type) : Type :=
| Return (value : A)
| Raise (exc : Exception).

Arguments Return {A} value.
Arguments Raise {A} exc.

(** The code outside the file that the fuser method calls: the numeric
    utility [nn.utils.fusion.fuse_linear_bn_eval], which given a linear
    layer and a batch-norm layer returns the folded linear layer, or
    raises; and the constructor [cls.__init__(self, *args)] of a
    fused-module class, which returns [None] or raises. *)
Class FusionUtils : Type := {
  fuse_linear_bn_eval : Module -> Module -> Outcome Module;
  fused_module_init : PyObj -> list Module -> Outcome unit
}.

(** Calls that leave the file. *)
Inductive Call : Type :=
| call_fuse_linear_bn_eval (linear bn : Module)
| call_class (cls : PyObj) (args : list Module).

(** The monad of the fuser method: the calls made so far, in order, and
    either a value or the exception that ended the run. *)
Record Fuse (A : Type) : Type := mkFuse {
  calls : list Call;
  outcome : Outcome A
}.

Definition Fuse_ret {A : Type} (x : A) : Fuse A :=
  {| calls := []; outcome := Return x |}.

Definition Fuse_bind {A B : Type} (m : Fuse A) (k : A -> Fuse B) : Fuse B :=
  match outcome m with
  | Return x => {| calls := calls m ++ calls (k x); outcome := outcome (k x) |}
  | Raise e => {| calls := calls m; outcome := Raise e |}
  end.

#[export] Instance Monad_Fuse : Monad Fuse :=
  {| ret := @Fuse_ret; bind := @Fuse_bind |}.

Definition raise {A : Type} (e : Exception) : Fuse A :=
  {| calls := []; outcome := Raise e |}.

(** [assert cond, msg] *)
Definition assert (cond : bool) (msg : string) : Fuse unit :=
  if cond then ret tt else raise (AssertionError msg).

(** [template.format(arg)] for a template with one [{}] field. *)
Fixpoint format (template arg : string) : string :=
  match template with
  | String "{"%char (String "}"%char rest) => arg ++ rest
  | String c rest => String c (format rest arg)
  | EmptyString => EmptyString
  end.

(** [str((a, b, c))]: a tuple prints the [repr] of its elements. *)
Definition str_tuple3 (a b c : Module) : string :=
  "(" ++ repr a ++ ", " ++ repr b ++ ", " ++ repr c ++ ")".

(** [d.get(key, None)] on a dictionary written as its list of items. *)
Fixpoint dict_get {V : Type} (d : list (PyObj * V)) (key : PyObj) : option V :=
  match d with
  | [] => None
  | (k, v) :: rest => if PyObj_eq_dec k key then Some v else dict_get rest key
  end.

(** Modelled from the spec: calling the fused-module class (declared in
    [torch.ao.nn.intrinsic], outside this file) "wraps the folded linear
    transform together with the activation in a new fused-module
    instance", unless the constructor of the class raises. *)
Definition new_instance `{FusionUtils} (cls : PyObj) (args : list Module)
    : Fuse Instance :=
  {| calls := [call_class cls args];
     outcome := match fused_module_init cls args with
                | Return _ =>
                    Return {| instance_class := cls; instance_args := args |}
                | Raise e => Raise e
                end |}.

Definition nn_utils_fusion_fuse_linear_bn_eval `{FusionUtils}
    (linear bn : Module) : Fuse Module :=
  {| calls := [call_fuse_linear_bn_eval linear bn];
     outcome := fuse_linear_bn_eval linear bn |}.

(** The dictionary literal [map_to_fused_module_eval] that
    [_fuse_linear_bn_leaky_relu] builds on its eval path. *)
Definition map_to_fused_module_eval : list (PyObj * PyObj) :=
  [(nn_Linear, nni_LinearLeakyReLU)].

Definition _fuse_linear_bn_leaky_relu `{FusionUtils} (is_qat : bool)
    (linear bn leaky_relu : Module) : Fuse Instance :=
  assert (Bool.eqb (training linear) (training bn)
          && Bool.eqb (training bn) (training leaky_relu))
    "Linear, BN and LeakyReLU all must be in the same mode (train or eval)." ;;
  if is_qat then
    raise (NotImplementedError
             (format "Cannot fuse train modules: {}"
                (str_tuple3 linear bn leaky_relu)))
  else
    let fused_module := dict_get map_to_fused_module_eval (type linear) in
    match fused_module with
    | Some fused_module =>
        fused_linear <- nn_utils_fusion_fuse_linear_bn_eval linear bn ;;
        fm <- new_instance fused_module [fused_linear; leaky_relu] ;;
        ret fm
    | None =>
        raise (NotImplementedError
                 (format "Cannot fuse eval modules: {}"
                    (str_tuple3 linear bn leaky_relu)))
    end.

(* ===================================================================== *)
(** ** Module-level construction and BACKEND CONFIGS                      *)
(* ===================================================================== *)

(** The module's global names once the import has run. *)
Record Globals : Type := mkGlobals {
  conv_dtype_configs : list DTypeConfig;
  conv_configs : list BackendPatternConfig;
  linear_dtype_configs : list DTypeConfig;
  observation_type : ObservationType;
  linear_configs : list BackendPatternConfig;
  binary_op_dtype_configs : list DTypeConfig;
  default_op_dtype_configs : list DTypeConfig;
  fixed_qparams_op_dtype_configs : list DTypeConfig;
  share_qparams_op_dtype_configs : list DTypeConfig;
  rnn_op_dtype_configs : list DTypeConfig;
  embedding_op_dtype_configs : list DTypeConfig;
  layer_norm_op_dtype_configs : list DTypeConfig
}.

(** The statements that mutate [linear_configs] after its creation. *)
Definition extend_linear_configs (linear_dtype_configs : list DTypeConfig)
    (observation_type : ObservationType)
    : state (list BackendPatternConfig) unit :=
  (* Configs for linear + leaky_relu fusion *)
  _add_eltwise_fusion_configs nn_Linear F_linear
    nn_LeakyReLU F_leaky_relu linear_dtype_configs
    (_sequential_wrapper2 nni_LinearLeakyReLU)
    nni_LinearLeakyReLU observation_type nnqr_Linear ;;
  (* Configs for linear module + batchnorm + leaky_relu *)
  append
    (new_BackendPatternConfig (PTuple [nn_Linear; nn_BatchNorm1d; nn_LeakyReLU])
       |> set_dtype_configs linear_dtype_configs
       |> set_fuser_method fuser_fuse_linear_bn_leaky_relu
       |> set_fused_module nni_LinearLeakyReLU) ;;
  (* Configs for linear + tanh fusion *)
  _add_eltwise_fusion_configs nn_Linear F_linear
    nn_Tanh torch_tanh linear_dtype_configs
    (_sequential_wrapper2 nni_LinearTanh)
    nni_LinearTanh observation_type nnqr_Linear.

(** The top-level statements of the file, in order. *)
Definition onednn_globals `{CommonOperatorConfigUtils} : Globals :=
  let conv_dtype_configs := [onednn_weighted_op_int8_dtype_config] in
  let conv_configs := _get_conv_configs conv_dtype_configs in
  let linear_dtype_configs :=
    [onednn_weighted_op_int8_dtype_config; onednn_dynamic_int8_dtype_config] in
  let observation_type := OUTPUT_USE_DIFFERENT_OBSERVER_AS_INPUT in
  let linear_configs := _get_linear_configs linear_dtype_configs in
  let linear_configs :=
    execState (extend_linear_configs linear_dtype_configs observation_type)
      linear_configs in
  {| conv_dtype_configs := conv_dtype_configs;
     conv_configs := conv_configs;
     linear_dtype_configs := linear_dtype_configs;
     observation_type := observation_type;
     linear_configs := linear_configs;
     binary_op_dtype_configs := [onednn_op_quint8_dtype_config];
     default_op_dtype_configs := [onednn_op_quint8_dtype_config];
     fixed_qparams_op_dtype_configs := [onednn_op_quint8_dtype_config];
     share_qparams_op_dtype_configs := [onednn_op_quint8_dtype_config];
     rnn_op_dtype_configs := [onednn_dynamic_int8_dtype_config];
     embedding_op_dtype_configs := [onednn_weight_only_qint8_dtype_config];
     layer_norm_op_dtype_configs := [onednn_input_output_only_quint8_dtype_config] |}.

(** [get_onednn_backend_config()]: reads the globals at call time. *)
Definition get_onednn_backend_config `{CommonOperatorConfigUtils}
    : state Globals BackendConfig :=
  g <- get ;;
  ret (new_BackendConfig "onednn"
         |> set_backend_pattern_configs (conv_configs g)
         |> set_backend_pattern_configs (linear_configs g)
         |> set_backend_pattern_configs
              (_get_binary_op_configs (binary_op_dtype_configs g))
         |> set_backend_pattern_config
              (_get_cat_config (default_op_dtype_configs g))
         |> set_backend_pattern_configs
              (_get_default_op_configs (default_op_dtype_configs g))
         |> set_backend_pattern_configs
              (_get_fixed_qparams_op_configs (fixed_qparams_op_dtype_configs g))
         |> set_backend_pattern_configs
              (_get_share_qparams_op_configs (share_qparams_op_dtype_configs g))
         |> set_backend_pattern_configs
              (_get_bn_configs (default_op_dtype_configs g))
         |> set_backend_pattern_configs
              (_get_ln_configs (layer_norm_op_dtype_configs g))
         |> set_backend_pattern_configs
              (_get_rnn_op_configs (rnn_op_dtype_configs g))
         |> set_backend_pattern_configs
              (_get_embedding_op_configs (embedding_op_dtype_configs g))).

(* ===================================================================== *)
(** ** Vocabulary of the statements, and concrete inputs                  *)
(* ===================================================================== *)

(** The three modules of one call are in the same mode. *)
Definition same_mode (linear bn leaky_relu : Module) : Prop :=
  training linear = training bn /\ training bn = training leaky_relu.

(** [sub] occurs in [msg]. *)
Definition mentions (msg sub : string) : Prop :=
  exists before after : string, msg = (before ++ sub ++ after)%string.

(** A pattern that names object [o]. *)
Definition pattern_names (o : PyObj) (p : Pattern) : bool :=
  match p with
  | POp op => if PyObj_eq_dec op o then true else false
  | PTuple ops => existsb (fun op => if PyObj_eq_dec op o then true else false) ops
  end.

(** A pattern of the linear family: it names [nn.Linear] or [F.linear]. *)
Definition linear_pattern (p : Pattern) : bool :=
  pattern_names nn_Linear p || pattern_names F_linear p.

(** Modelled from the spec: the table builders of
    [_common_operator_config_utils.py] are outside this file; each is
    "parameterized with the data-type-combination lists appropriate to
    that family" and returns "ready-made pattern descriptors".
    [populated table] says that a builder's table has a descriptor. *)
Definition populated (table : list BackendPatternConfig) : Prop :=
  table <> [].

(** [m.eval()] and [m.train()]. *)
Definition eval (m : Module) : Module :=
  {| type := type m; training := false; repr := repr m |}.

Definition train (m : Module) : Module :=
  {| type := type m; training := true; repr := repr m |}.

(** The modules of the docstring example of [_fuse_linear_bn_leaky_relu];
    a module is created in training mode. *)
Definition m1 : Module :=
  {| type := nn_Linear; training := true;
     repr := "Linear(in_features=20, out_features=10, bias=True)" |}.

Definition b1 : Module :=
  {| type := nn_BatchNorm1d; training := true;
     repr := "BatchNorm1d(10, eps=1e-05, momentum=0.1, affine=True, track_running_stats=True)" |}.

Definition lr : Module :=
  {| type := nn_LeakyReLU; training := true;
     repr := "LeakyReLU(negative_slope=0.01)" |}.

(** An instance of a class declared as [class QLinear(nn.Linear)]. *)
Definition m_sub : Module :=
  {| type := Subclass "QLinear" nn_Linear; training := false;
     repr := "QLinear(in_features=20, out_features=10, bias=True)" |}.

(** Modelled from the spec: [nn.utils.fusion.fuse_linear_bn_eval] is
    outside this file; it "analytically folds a batch-normalization
    layer's affine parameters into a preceding linear layer's weight and
    bias".  The numbers are not modelled: the folded layer is a linear
    layer of the same class, mode and printed form. *)
Definition spec_fusion_utils : FusionUtils :=
  {| fuse_linear_bn_eval := fun linear bn =>
       Return {| type := type linear;
                 training := training linear;
                 repr := repr linear |};
     fused_module_init := fun cls args => Return tt |}.

(** The fold utility refuses a layer in training mode: it starts with
    [assert(not (linear.training or bn.training)), "Fusion only for eval!"]. *)
Definition fold_asserts_eval (FU : FusionUtils) : Prop :=
  forall linear bn : Module,
    training linear || training bn = true ->
    fuse_linear_bn_eval linear bn
    = Raise (AssertionError "Fusion only for eval!").

(** [str(cls)] for a class, as the constructor's message shows the types
    of its arguments; an object that is not one of the named classes is
    shown by its name. *)
Definition str_type (cls : PyObj) : string :=
  "<class '"
  ++ match cls with
     | nn_Linear => "torch.nn.modules.linear.Linear"
     | nn_BatchNorm1d => "torch.nn.modules.batchnorm.BatchNorm1d"
     | nn_LeakyReLU => "torch.nn.modules.activation.LeakyReLU"
     | nn_Tanh => "torch.nn.modules.activation.Tanh"
     | nni_LinearLeakyReLU => "torch.ao.nn.intrinsic.modules.fused.LinearLeakyReLU"
     | nni_LinearTanh => "torch.ao.nn.intrinsic.modules.fused.LinearTanh"
     | nnqr_Linear => "torch.ao.nn.quantized.reference.modules.linear.Linear"
     | F_linear => "linear"
     | F_leaky_relu => "leaky_relu"
     | torch_tanh => "tanh"
     | Subclass name _ => name
     | Named qualname => qualname
     end
  ++ "'>".

(** Modelled from the spec: the two collaborators as the framework has
    them, outside this file.  [fuse_linear_bn_eval] asserts that neither
    layer is in training mode, then folds "a batch-normalization layer's
    affine parameters into a preceding linear layer's weight and bias"
    on a copy of the linear layer (the numbers are not modelled).  The
    constructor of [nni.LinearLeakyReLU] asserts that it is given an
    [nn.Linear] and an [nn.LeakyReLU]. *)
Definition torch_fusion_utils : FusionUtils :=
  {| fuse_linear_bn_eval := fun linear bn =>
       if training linear || training bn
       then Raise (AssertionError "Fusion only for eval!")
       else Return {| type := type linear;
                      training := training linear;
                      repr := repr linear |};
     fused_module_init := fun cls args =>
       match args with
       | [linear; leaky_relu] =>
           if PyObj_eq_dec (type linear) nn_Linear then
             if PyObj_eq_dec (type leaky_relu) nn_LeakyReLU then Return tt
             else Raise (AssertionError
                           ("Incorrect types for input modules"
                            ++ str_type (type linear)
                            ++ str_type (type leaky_relu)))
           else Raise (AssertionError
                         ("Incorrect types for input modules"
                          ++ str_type (type linear)
                          ++ str_type (type leaky_relu)))
       | _ => Raise (OtherError "TypeError"
                       "__init__() takes 3 positional arguments")
       end |}.

(** Table builders with one descriptor per family, to run the assembly on. *)
Definition one_config (qualname : string) (dtype_configs : list DTypeConfig)
    : BackendPatternConfig :=
  new_BackendPatternConfig (POp (Named qualname))
    |> set_dtype_configs dtype_configs.

Definition sample_config_utils : CommonOperatorConfigUtils :=
  {| _get_conv_configs := fun d => [one_config "torch.nn.Conv2d" d];
     _get_linear_configs := fun d =>
       [new_BackendPatternConfig (POp nn_Linear) |> set_dtype_configs d];
     _get_binary_op_configs := fun d => [one_config "torch.add" d];
     _get_bn_configs := fun d => [one_config "torch.nn.BatchNorm2d" d];
     _get_cat_config := fun d => one_config "torch.cat" d;
     _get_default_op_configs := fun d => [one_config "torch.nn.ELU" d];
     _get_embedding_op_configs := fun d => [one_config "torch.nn.Embedding" d];
     _get_fixed_qparams_op_configs := fun d => [one_config "torch.nn.Sigmoid" d];
     _get_ln_configs := fun d => [one_config "torch.nn.LayerNorm" d];
     _get_rnn_op_configs := fun d => [one_config "torch.nn.LSTM" d];
     _get_share_qparams_op_configs := fun d => [one_config "torch.nn.ReLU" d] |}.

(** The descriptors one call of [_add_eltwise_fusion_configs] makes, slot
    by slot, in the order of its statements. *)
Definition eltwise_descriptors
    (root_module root_op post_module post_op : PyObj)
    (dtype_configs : list DTypeConfig) (fuser_method : FuserMethod)
    (fused_module : PyObj) (observation_type : ObservationType)
    (ref_quant_module : PyObj) : list BackendPatternConfig :=
  [ mkBackendPatternConfig (PTuple [root_module; post_module])
      OUTPUT_USE_DIFFERENT_OBSERVER_AS_INPUT
      dtype_configs None None (Some fused_module) (Some fuser_method);
    mkBackendPatternConfig (PTuple [root_module; post_op])
      OUTPUT_USE_DIFFERENT_OBSERVER_AS_INPUT
      dtype_configs None None (Some fused_module) (Some fuser_method);
    mkBackendPatternConfig (POp fused_module) observation_type
      dtype_configs (Some root_module) (Some ref_quant_module) None None;
    mkBackendPatternConfig (PTuple [root_op; post_module])
      observation_type dtype_configs None None None None;
    mkBackendPatternConfig (PTuple [root_op; post_op])
      observation_type dtype_configs None None None None ].

(* ===================================================================== *)
(** ** The dtype configs                                                  *)
(* ===================================================================== *)

(** C6: the five dtype-config constants carry the documented values:
    weighted-op quint8/quint8/qint8/float; op-quint8 quint8/quint8 with no
    weight or bias dtype; dynamic quint8/float/qint8/float with the dynamic
    flag true; weight-only float/float/qint8; input-output-only
    quint8/quint8 with float weight and bias. *)
Theorem dtype_configs_field_values :
  (input_dtype onednn_weighted_op_int8_dtype_config = Some torch_quint8
   /\ output_dtype onednn_weighted_op_int8_dtype_config = Some torch_quint8
   /\ weight_dtype onednn_weighted_op_int8_dtype_config = Some torch_qint8
   /\ bias_dtype onednn_weighted_op_int8_dtype_config = Some torch_float)
  /\ (input_dtype onednn_op_quint8_dtype_config = Some torch_quint8
      /\ output_dtype onednn_op_quint8_dtype_config = Some torch_quint8
      /\ weight_dtype onednn_op_quint8_dtype_config = None
      /\ bias_dtype onednn_op_quint8_dtype_config = None)
  /\ (input_dtype onednn_dynamic_int8_dtype_config = Some torch_quint8
      /\ output_dtype onednn_dynamic_int8_dtype_config = Some torch_float
      /\ weight_dtype onednn_dynamic_int8_dtype_config = Some torch_qint8
      /\ bias_dtype onednn_dynamic_int8_dtype_config = Some torch_float
      /\ is_dynamic onednn_dynamic_int8_dtype_config = Some true)
  /\ (input_dtype onednn_weight_only_qint8_dtype_config = Some torch_float
      /\ output_dtype onednn_weight_only_qint8_dtype_config = Some torch_float
      /\ weight_dtype onednn_weight_only_qint8_dtype_config = Some torch_qint8)
  /\ (input_dtype onednn_input_output_only_quint8_dtype_config = Some torch_quint8
      /\ output_dtype onednn_input_output_only_quint8_dtype_config = Some torch_quint8
      /\ weight_dtype onednn_input_output_only_quint8_dtype_config = Some torch_float
      /\ bias_dtype onednn_input_output_only_quint8_dtype_config = Some torch_float).
Proof. repeat split. Qed.

(* ===================================================================== *)
(** ** The eltwise expansion helper                                       *)
(* ===================================================================== *)

Lemma append_exec (A : Type) (x : A) (l : list A) :
  execState (append x) l = l ++ [x].
Proof. reflexivity. Qed.

Section EltwiseFusionConfigs.

Variables root_module root_op post_module post_op : PyObj.
Variable dtype_configs : list DTypeConfig.
Variable fuser_method : FuserMethod.
Variable fused_module : PyObj.
Variable observation_type : ObservationType.
Variable ref_quant_module : PyObj.

Lemma add_eltwise_exec (configs : list BackendPatternConfig) :
  execState
    (_add_eltwise_fusion_configs root_module root_op post_module post_op
       dtype_configs fuser_method fused_module observation_type
       ref_quant_module)
    configs
  = configs
    ++ eltwise_descriptors root_module root_op post_module post_op
         dtype_configs fuser_method fused_module observation_type
         ref_quant_module.
Proof.
  unfold _add_eltwise_fusion_configs, append, execState. cbn.
  repeat rewrite <- app_assoc. reflexivity.
Qed.

(** C1 (as amended): one call appends exactly five pattern descriptors
    to the supplied collection, for the patterns (module, module),
    (module, function), the fused module alone, (function, module) and
    (function, function), in this order. *)
Theorem add_eltwise_appends_five (configs : list BackendPatternConfig) :
  exists new : list BackendPatternConfig,
    execState
      (_add_eltwise_fusion_configs root_module root_op post_module post_op
         dtype_configs fuser_method fused_module observation_type
         ref_quant_module)
      configs
    = configs ++ new
    /\ length new = 5
    /\ map cfg_pattern new =
         [ PTuple [root_module; post_module];
           PTuple [root_module; post_op];
           POp fused_module;
           PTuple [root_op; post_module];
           PTuple [root_op; post_op] ].
Proof.
  eexists. split; [apply add_eltwise_exec|]. split; reflexivity.
Qed.

(** C9: a call leaves the prior elements of the collection unchanged
    and in their order, and the new descriptors come after them. *)
Theorem add_eltwise_append_only (configs : list BackendPatternConfig) :
  let after :=
    execState
      (_add_eltwise_fusion_configs root_module root_op post_module post_op
         dtype_configs fuser_method fused_module observation_type
         ref_quant_module)
      configs in
  firstn (length configs) after = configs
  /\ (forall (i : nat) (c : BackendPatternConfig),
        nth_error configs i = Some c -> nth_error after i = Some c)
  /\ after = configs ++ skipn (length configs) after.
Proof.
  cbv zeta. rewrite add_eltwise_exec. repeat split.
  - rewrite firstn_app, Nat.sub_diag, firstn_all. cbn. apply app_nil_r.
  - intros i c Hi. rewrite nth_error_app1; [exact Hi|].
    apply nth_error_Some. congruence.
  - rewrite skipn_app, Nat.sub_diag, skipn_all. reflexivity.
Qed.

End EltwiseFusionConfigs.

(** C1 (as stated): on the empty collection, with the arguments of the
    first call in the file, the collection does not grow by four. *)
Lemma add_eltwise_not_four :
  length
    (execState
       (_add_eltwise_fusion_configs nn_Linear F_linear nn_LeakyReLU
          F_leaky_relu
          [onednn_weighted_op_int8_dtype_config; onednn_dynamic_int8_dtype_config]
          (_sequential_wrapper2 nni_LinearLeakyReLU) nni_LinearLeakyReLU
          OUTPUT_USE_DIFFERENT_OBSERVER_AS_INPUT nnqr_Linear)
       [])
  <> length (@nil BackendPatternConfig) + 4.
Proof. cbn. discriminate. Qed.

(* ===================================================================== *)
(** ** The fuser method                                                   *)
(* ===================================================================== *)

Lemma string_app_nil_r (s : string) : (s ++ "")%string = s.
Proof. induction s as [|c s IH]; cbn; [reflexivity | now rewrite IH]. Qed.

Lemma string_app_assoc (a b c : string) :
  ((a ++ b) ++ c)%string = (a ++ b ++ c)%string.
Proof. induction a as [|x a IH]; cbn; [reflexivity | now rewrite IH]. Qed.

Lemma format_train (x : string) :
  format "Cannot fuse train modules: {}" x
  = ("Cannot fuse train modules: " ++ x)%string.
Proof. cbn. now rewrite string_app_nil_r. Qed.

Lemma format_eval (x : string) :
  format "Cannot fuse eval modules: {}" x
  = ("Cannot fuse eval modules: " ++ x)%string.
Proof. cbn. now rewrite string_app_nil_r. Qed.

Lemma mentions_app_r (p s sub : string) :
  mentions s sub -> mentions (p ++ s) sub.
Proof.
  intros [before [after ->]]. exists (p ++ before)%string, after.
  now rewrite string_app_assoc.
Qed.

(** The printed tuple shows each of its three modules. *)
Lemma str_tuple3_mentions (a b c : Module) :
  mentions (str_tuple3 a b c) (repr a)
  /\ mentions (str_tuple3 a b c) (repr b)
  /\ mentions (str_tuple3 a b c) (repr c).
Proof.
  unfold str_tuple3. repeat split.
  - exists "(", (", " ++ repr b ++ ", " ++ repr c ++ ")")%string. reflexivity.
  - exists ("(" ++ repr a ++ ", ")%string, (", " ++ repr c ++ ")")%string.
    now rewrite !string_app_assoc.
  - exists ("(" ++ repr a ++ ", " ++ repr b ++ ", ")%string, ")".
    now rewrite !string_app_assoc.
Qed.

Lemma dict_get_fused (t : PyObj) :
  dict_get map_to_fused_module_eval t
  = if PyObj_eq_dec nn_Linear t then Some nni_LinearLeakyReLU else None.
Proof. reflexivity. Qed.

Lemma dict_get_fused_none (t : PyObj) :
  dict_get map_to_fused_module_eval t = None <-> t <> nn_Linear.
Proof.
  rewrite dict_get_fused. destruct (PyObj_eq_dec nn_Linear t) as [E|N].
  - split; [discriminate | intros H; now elim H].
  - split; [intros _ E; now elim N | reflexivity].
Qed.

Lemma same_mode_test (linear bn leaky_relu : Module) :
  same_mode linear bn leaky_relu ->
  Bool.eqb (training linear) (training bn)
  && Bool.eqb (training bn) (training leaky_relu) = true.
Proof.
  intros [H1 H2]. rewrite H1, H2. now rewrite Bool.eqb_reflx.
Qed.

Lemma mixed_mode_test (linear bn leaky_relu : Module) :
  ~ same_mode linear bn leaky_relu ->
  Bool.eqb (training linear) (training bn)
  && Bool.eqb (training bn) (training leaky_relu) = false.
Proof.
  unfold same_mode. intros H.
  destruct (training linear), (training bn), (training leaky_relu);
    try reflexivity; elim H; now split.
Qed.

Section FuserMethod.

Context `{FU : FusionUtils}.

Variables linear bn leaky_relu : Module.

Lemma fuse_qat :
  same_mode linear bn leaky_relu ->
  _fuse_linear_bn_leaky_relu true linear bn leaky_relu
  = {| calls := [];
       outcome := Raise (NotImplementedError
                           (format "Cannot fuse train modules: {}"
                              (str_tuple3 linear bn leaky_relu))) |}.
Proof.
  intros H. unfold _fuse_linear_bn_leaky_relu.
  rewrite (same_mode_test H). reflexivity.
Qed.

Lemma fuse_unregistered :
  same_mode linear bn leaky_relu ->
  dict_get map_to_fused_module_eval (type linear) = None ->
  _fuse_linear_bn_leaky_relu false linear bn leaky_relu
  = {| calls := [];
       outcome := Raise (NotImplementedError
                           (format "Cannot fuse eval modules: {}"
                              (str_tuple3 linear bn leaky_relu))) |}.
Proof.
  intros H HN. unfold _fuse_linear_bn_leaky_relu.
  rewrite (same_mode_test H), HN. reflexivity.
Qed.

Lemma fuse_registered (fused_module : PyObj) :
  same_mode linear bn leaky_relu ->
  dict_get map_to_fused_module_eval (type linear) = Some fused_module ->
  _fuse_linear_bn_leaky_relu false linear bn leaky_relu
  = match fuse_linear_bn_eval linear bn with
    | Return fused_linear =>
        {| calls := [call_fuse_linear_bn_eval linear bn;
                     call_class fused_module [fused_linear; leaky_relu]];
           outcome :=
             match fused_module_init fused_module [fused_linear; leaky_relu] with
             | Return _ =>
                 Return {| instance_class := fused_module;
                           instance_args := [fused_linear; leaky_relu] |}
             | Raise e => Raise e
             end |}
    | Raise e =>
        {| calls := [call_fuse_linear_bn_eval linear bn];
           outcome := Raise e |}
    end.
Proof.
  intros H HS. unfold _fuse_linear_bn_leaky_relu.
  rewrite (same_mode_test H), HS. cbn.
  unfold Fuse_bind, nn_utils_fusion_fuse_linear_bn_eval, new_instance. cbn.
  destruct (fuse_linear_bn_eval linear bn) as [fl|e]; cbn; [|reflexivity].
  destruct (fused_module_init fused_module [fl; leaky_relu]); reflexivity.
Qed.

Lemma fold_refuses_training :
  fold_asserts_eval FU ->
  same_mode linear bn leaky_relu ->
  training linear = true ->
  fuse_linear_bn_eval linear bn
  = Raise (AssertionError "Fusion only for eval!").
Proof.
  intros HA _ HT. apply HA. now rewrite HT.
Qed.

(** C3: when the three modules are not all in one mode the call ends in
    the assertion error, whatever [is_qat], the type of [linear] and the
    fold utility are, and without any call to the fold utility or to a
    fused-module class. *)
Theorem fuse_mixed_mode_asserts (is_qat : bool) :
  ~ same_mode linear bn leaky_relu ->
  _fuse_linear_bn_leaky_relu is_qat linear bn leaky_relu
  = {| calls := [];
       outcome := Raise (AssertionError
         "Linear, BN and LeakyReLU all must be in the same mode (train or eval).") |}.
Proof.
  intros H. unfold _fuse_linear_bn_leaky_relu.
  rewrite (mixed_mode_test H). reflexivity.
Qed.

(** C4: with [is_qat] set and the three modules in one mode the call
    raises [NotImplementedError], and the message shows the linear, the
    batch-norm and the leaky-ReLU module. *)
Theorem fuse_qat_not_implemented :
  same_mode linear bn leaky_relu ->
  exists msg : string,
    _fuse_linear_bn_leaky_relu true linear bn leaky_relu
    = {| calls := []; outcome := Raise (NotImplementedError msg) |}
    /\ msg = ("Cannot fuse train modules: "
              ++ str_tuple3 linear bn leaky_relu)%string
    /\ mentions msg (repr linear)
    /\ mentions msg (repr bn)
    /\ mentions msg (repr leaky_relu).
Proof.
  intros H. eexists. split; [apply (fuse_qat H)|].
  rewrite format_train. split; [reflexivity|].
  destruct (str_tuple3_mentions linear bn leaky_relu) as [Ha [Hb Hc]].
  repeat split; now apply mentions_app_r.
Qed.

(** C5 (as amended): with [is_qat] false and the three modules in one
    mode: when the type of [linear] has no entry in the dictionary the
    call raises [NotImplementedError] with a message showing the three
    modules; when it has the entry [fused_module], the call runs the fold
    utility and then [fused_module(fused_linear, leaky_relu)], and
    returns that instance when both return; an exception of either ends
    the call instead, and so does the fold utility's assertion when the
    modules are in training mode. *)
Theorem fuse_eval_dispatch :
  same_mode linear bn leaky_relu ->
  (dict_get map_to_fused_module_eval (type linear) = None ->
   exists msg : string,
     outcome (_fuse_linear_bn_leaky_relu false linear bn leaky_relu)
     = Raise (NotImplementedError msg)
     /\ msg = ("Cannot fuse eval modules: "
               ++ str_tuple3 linear bn leaky_relu)%string
     /\ mentions msg (repr linear)
     /\ mentions msg (repr bn)
     /\ mentions msg (repr leaky_relu))
  /\ (forall fused_module : PyObj,
        dict_get map_to_fused_module_eval (type linear) = Some fused_module ->
        (forall fused_linear : Module,
           fuse_linear_bn_eval linear bn = Return fused_linear ->
           fused_module_init fused_module [fused_linear; leaky_relu]
           = Return tt ->
           outcome (_fuse_linear_bn_leaky_relu false linear bn leaky_relu)
           = Return {| instance_class := fused_module;
                       instance_args := [fused_linear; leaky_relu] |})
        /\ (forall e : Exception,
              fuse_linear_bn_eval linear bn = Raise e ->
              outcome (_fuse_linear_bn_leaky_relu false linear bn leaky_relu)
              = Raise e)
        /\ (forall (fused_linear : Module) (e : Exception),
              fuse_linear_bn_eval linear bn = Return fused_linear ->
              fused_module_init fused_module [fused_linear; leaky_relu]
              = Raise e ->
              outcome (_fuse_linear_bn_leaky_relu false linear bn leaky_relu)
              = Raise e)
        /\ (fold_asserts_eval FU ->
            training linear = true ->
            outcome (_fuse_linear_bn_leaky_relu false linear bn leaky_relu)
            = Raise (AssertionError "Fusion only for eval!"))).
Proof.
  intros H. split.
  - intros HN. eexists. rewrite (fuse_unregistered H HN). cbn [outcome].
    split; [reflexivity|]. rewrite format_eval. split; [reflexivity|].
    destruct (str_tuple3_mentions linear bn leaky_relu) as [Ha [Hb Hc]].
    repeat split; now apply mentions_app_r.
  - intros fused_module HS. rewrite (fuse_registered H HS).
    split; [|split; [|split]].
    + intros fl Hf Hi. rewrite Hf. cbn [outcome]. now rewrite Hi.
    + intros e Hf. now rewrite Hf.
    + intros fl e Hf Hi. rewrite Hf. cbn [outcome]. now rewrite Hi.
    + intros HA HT. now rewrite (fold_refuses_training HA H HT).
Qed.

(** C10: the dictionary is keyed by the exact runtime type: when the type
    of [linear] is not [nn.Linear] itself (a subclass of it included) and
    the modules are in one mode, the call raises [NotImplementedError]
    and makes no call to the fold utility or to a fused-module class. *)
Theorem fuse_exact_type_dispatch (is_qat : bool) :
  same_mode linear bn leaky_relu ->
  type linear <> nn_Linear ->
  dict_get map_to_fused_module_eval (type linear) = None
  /\ _fuse_linear_bn_leaky_relu is_qat linear bn leaky_relu
     = {| calls := [];
          outcome := Raise (NotImplementedError
            (format (if is_qat then "Cannot fuse train modules: {}"
                     else "Cannot fuse eval modules: {}")
               (str_tuple3 linear bn leaky_relu))) |}.
Proof.
  intros H HT. assert (HN := proj2 (dict_get_fused_none (type linear)) HT).
  split; [exact HN|].
  destruct is_qat; [apply (fuse_qat H) | apply (fuse_unregistered H HN)].
Qed.

(** C2 (as amended): with the three modules in training mode the call
    raises [NotImplementedError] when [is_qat] is set, whatever the
    module types; with [is_qat] false it raises [NotImplementedError]
    when the type of [linear] is not [nn.Linear], and for [nn.Linear]
    it raises no such error of its own: it calls the fold utility and
    ends as that call and the class call after it do; the fold utility
    refuses layers in training mode, so the call ends in its assertion
    error and returns no module. *)
Theorem fuse_training_modules (is_qat : bool) :
  training linear = true -> training bn = true -> training leaky_relu = true ->
  (is_qat = true ->
   _fuse_linear_bn_leaky_relu is_qat linear bn leaky_relu
   = {| calls := [];
        outcome := Raise (NotImplementedError
                            (format "Cannot fuse train modules: {}"
                               (str_tuple3 linear bn leaky_relu))) |})
  /\ (is_qat = false -> type linear <> nn_Linear ->
      _fuse_linear_bn_leaky_relu is_qat linear bn leaky_relu
      = {| calls := [];
           outcome := Raise (NotImplementedError
                               (format "Cannot fuse eval modules: {}"
                                  (str_tuple3 linear bn leaky_relu))) |})
  /\ (is_qat = false -> type linear = nn_Linear ->
      outcome (_fuse_linear_bn_leaky_relu is_qat linear bn leaky_relu)
      = match fuse_linear_bn_eval linear bn with
        | Return fused_linear =>
            match fused_module_init nni_LinearLeakyReLU
                    [fused_linear; leaky_relu] with
            | Return _ =>
                Return {| instance_class := nni_LinearLeakyReLU;
                          instance_args := [fused_linear; leaky_relu] |}
            | Raise e => Raise e
            end
        | Raise e => Raise e
        end)
  /\ (is_qat = false -> type linear = nn_Linear -> fold_asserts_eval FU ->
      _fuse_linear_bn_leaky_relu is_qat linear bn leaky_relu
      = {| calls := [call_fuse_linear_bn_eval linear bn];
           outcome := Raise (AssertionError "Fusion only for eval!") |}).
Proof.
  intros Hl Hb Hr.
  assert (H : same_mode linear bn leaky_relu)
    by (unfold same_mode; rewrite Hl, Hb, Hr; now split).
  split; [|split; [|split]].
  - intros ->. apply (fuse_qat H).
  - intros -> HT. apply (fuse_unregistered H).
    now apply dict_get_fused_none.
  - intros -> HT.
    assert (HS : dict_get map_to_fused_module_eval (type linear)
                 = Some nni_LinearLeakyReLU) by (now rewrite HT).
    rewrite (fuse_registered H HS).
    destruct (fuse_linear_bn_eval linear bn); reflexivity.
  - intros -> HT HA.
    assert (HS : dict_get map_to_fused_module_eval (type linear)
                 = Some nni_LinearLeakyReLU) by (now rewrite HT).
    rewrite (fuse_registered H HS).
    now rewrite (fold_refuses_training HA H Hl).
Qed.

End FuserMethod.

Lemma torch_fold_asserts_eval : fold_asserts_eval torch_fusion_utils.
Proof. intros linear bn H. cbn. now rewrite H. Qed.

(** C2 (as stated): the docstring's three modules, all in training mode,
    with [is_qat] false: the call ends in the fold utility's assertion
    error, not in [NotImplementedError]. *)
Lemma fuse_training_not_unsupported :
  training m1 = true /\ training b1 = true /\ training lr = true
  /\ outcome (@_fuse_linear_bn_leaky_relu torch_fusion_utils false m1 b1 lr)
     = Raise (AssertionError "Fusion only for eval!")
  /\ ~ (exists msg : string,
          outcome (@_fuse_linear_bn_leaky_relu torch_fusion_utils false m1 b1 lr)
          = Raise (NotImplementedError msg)).
Proof.
  repeat split. intros [msg H]. discriminate H.
Qed.

(** C5 (as stated): the docstring's three modules share the training
    mode and [nn.Linear] has its entry in the dictionary, yet with
    [is_qat] false the call returns no module: it ends in the fold
    utility's assertion error. *)
Lemma fuse_eval_dispatch_no_return :
  same_mode m1 b1 lr
  /\ dict_get map_to_fused_module_eval (type m1) = Some nni_LinearLeakyReLU
  /\ outcome (@_fuse_linear_bn_leaky_relu torch_fusion_utils false m1 b1 lr)
     = Raise (AssertionError "Fusion only for eval!")
  /\ ~ (exists fm : Instance,
          outcome (@_fuse_linear_bn_leaky_relu torch_fusion_utils false m1 b1 lr)
          = Return fm).
Proof.
  unfold same_mode. repeat split. intros [fm H]. discriminate H.
Qed.

Lemma fuse_training_modules_witness :
  training m1 = true /\ training b1 = true /\ training lr = true
  /\ @_fuse_linear_bn_leaky_relu torch_fusion_utils true m1 b1 lr
     = {| calls := [];
          outcome := Raise (NotImplementedError
                              (format "Cannot fuse train modules: {}"
                                 (str_tuple3 m1 b1 lr))) |}
  /\ @_fuse_linear_bn_leaky_relu torch_fusion_utils false m1 b1 lr
     = {| calls := [call_fuse_linear_bn_eval m1 b1];
          outcome := Raise (AssertionError "Fusion only for eval!") |}.
Proof.
  split; [reflexivity|]. split; [reflexivity|]. split; [reflexivity|].
  split.
  - exact (proj1 (@fuse_training_modules torch_fusion_utils m1 b1 lr true
                    eq_refl eq_refl eq_refl) eq_refl).
  - exact (proj2 (proj2 (proj2
             (@fuse_training_modules torch_fusion_utils m1 b1 lr false
                eq_refl eq_refl eq_refl)))
             eq_refl eq_refl torch_fold_asserts_eval).
Defined.

Lemma fuse_mixed_mode_asserts_witness :
  ~ same_mode (eval m1) b1 lr
  /\ @_fuse_linear_bn_leaky_relu spec_fusion_utils false (eval m1) b1 lr
     = {| calls := [];
          outcome := Raise (AssertionError
            "Linear, BN and LeakyReLU all must be in the same mode (train or eval).") |}.
Proof.
  assert (H : ~ same_mode (eval m1) b1 lr)
    by (unfold same_mode; cbn; intros [H _]; discriminate H).
  split; [exact H|].
  exact (@fuse_mixed_mode_asserts spec_fusion_utils (eval m1) b1 lr false H).
Defined.

Lemma fuse_qat_not_implemented_witness :
  same_mode m1 b1 lr
  /\ exists msg : string,
       @_fuse_linear_bn_leaky_relu spec_fusion_utils true m1 b1 lr
       = {| calls := []; outcome := Raise (NotImplementedError msg) |}
       /\ msg = ("Cannot fuse train modules: " ++ str_tuple3 m1 b1 lr)%string
       /\ mentions msg (repr m1)
       /\ mentions msg (repr b1)
       /\ mentions msg (repr lr).
Proof.
  assert (H : same_mode m1 b1 lr) by (unfold same_mode; cbn; now split).
  split; [exact H|].
  exact (@fuse_qat_not_implemented spec_fusion_utils m1 b1 lr H).
Defined.

Lemma fuse_eval_dispatch_witness :
  same_mode (eval m1) (eval b1) (eval lr)
  /\ outcome (@_fuse_linear_bn_leaky_relu torch_fusion_utils false
                (eval m1) (eval b1) (eval lr))
     = Return {| instance_class := nni_LinearLeakyReLU;
                 instance_args := [eval m1; eval lr] |}.
Proof.
  assert (H : same_mode (eval m1) (eval b1) (eval lr))
    by (unfold same_mode; cbn; now split).
  split; [exact H|].
  exact (proj1
           (proj2 (@fuse_eval_dispatch torch_fusion_utils
                     (eval m1) (eval b1) (eval lr) H)
              nni_LinearLeakyReLU eq_refl)
           (eval m1) eq_refl eq_refl).
Defined.

Lemma fuse_exact_type_dispatch_witness :
  issubclass (type m_sub) nn_Linear = true
  /\ same_mode m_sub (eval b1) (eval lr)
  /\ type m_sub <> nn_Linear
  /\ @_fuse_linear_bn_leaky_relu spec_fusion_utils false
       m_sub (eval b1) (eval lr)
     = {| calls := [];
          outcome := Raise (NotImplementedError
                              (format "Cannot fuse eval modules: {}"
                                 (str_tuple3 m_sub (eval b1) (eval lr)))) |}.
Proof.
  assert (H : same_mode m_sub (eval b1) (eval lr))
    by (unfold same_mode; cbn; now split).
  assert (HT : type m_sub <> nn_Linear) by (cbn; discriminate).
  split; [reflexivity|]. split; [exact H|]. split; [exact HT|].
  exact (proj2 (@fuse_exact_type_dispatch spec_fusion_utils
                  m_sub (eval b1) (eval lr) false H HT)).
Defined.

(* ===================================================================== *)
(** ** The backend descriptor                                             *)
(* ===================================================================== *)

Lemma set_backend_pattern_configs_spec (confs : list BackendPatternConfig) :
  forall self : BackendConfig,
    self |> set_backend_pattern_configs confs
    = {| name := name self; configs := configs self ++ confs |}.
Proof.
  unfold set_backend_pattern_configs.
  induction confs as [|conf confs IH]; intros self; cbn.
  - rewrite app_nil_r. now destruct self.
  - rewrite IH. cbn. now rewrite <- app_assoc.
Qed.

Section BackendConfigs.

Context `{U : CommonOperatorConfigUtils}.

Lemma extend_linear_configs_exec (dtype_configs : list DTypeConfig)
    (observation_type : ObservationType)
    (configs : list BackendPatternConfig) :
  execState (extend_linear_configs dtype_configs observation_type) configs
  = configs
    ++ eltwise_descriptors nn_Linear F_linear nn_LeakyReLU F_leaky_relu
         dtype_configs (_sequential_wrapper2 nni_LinearLeakyReLU)
         nni_LinearLeakyReLU observation_type nnqr_Linear
    ++ [mkBackendPatternConfig
          (PTuple [nn_Linear; nn_BatchNorm1d; nn_LeakyReLU])
          OUTPUT_USE_DIFFERENT_OBSERVER_AS_INPUT
          dtype_configs None None (Some nni_LinearLeakyReLU)
          (Some fuser_fuse_linear_bn_leaky_relu)]
    ++ eltwise_descriptors nn_Linear F_linear nn_Tanh torch_tanh
         dtype_configs (_sequential_wrapper2 nni_LinearTanh)
         nni_LinearTanh observation_type nnqr_Linear.
Proof.
  unfold extend_linear_configs, _add_eltwise_fusion_configs, append, execState.
  cbn. repeat rewrite <- app_assoc. reflexivity.
Qed.

Lemma get_onednn_backend_config_run (g : Globals) :
  runState get_onednn_backend_config g
  = ({| name := "onednn";
        configs :=
          conv_configs g
          ++ linear_configs g
          ++ _get_binary_op_configs (binary_op_dtype_configs g)
          ++ [_get_cat_config (default_op_dtype_configs g)]
          ++ _get_default_op_configs (default_op_dtype_configs g)
          ++ _get_fixed_qparams_op_configs (fixed_qparams_op_dtype_configs g)
          ++ _get_share_qparams_op_configs (share_qparams_op_dtype_configs g)
          ++ _get_bn_configs (default_op_dtype_configs g)
          ++ _get_ln_configs (layer_norm_op_dtype_configs g)
          ++ _get_rnn_op_configs (rnn_op_dtype_configs g)
          ++ _get_embedding_op_configs (embedding_op_dtype_configs g) |},
     g).
Proof.
  unfold get_onednn_backend_config.
  cbn -[set_backend_pattern_configs set_backend_pattern_config].
  repeat (rewrite set_backend_pattern_configs_spec
          || unfold set_backend_pattern_config at 1
          || cbn [name configs]).
  unfold new_BackendConfig; cbn [name configs app].
  repeat rewrite <- app_assoc. reflexivity.
Qed.

(** C7: the descriptor that [get_onednn_backend_config] returns after the
    import is named "onednn"; its list of pattern descriptors is not
    empty and has a linear pattern; and it has a descriptor of the
    convolution, the binary-op and the normalization table, each table
    builder returning a populated table. *)
Theorem get_onednn_backend_config_contents :
  populated (_get_conv_configs [onednn_weighted_op_int8_dtype_config]) ->
  populated (_get_binary_op_configs [onednn_op_quint8_dtype_config]) ->
  populated (_get_bn_configs [onednn_op_quint8_dtype_config])
  \/ populated (_get_ln_configs [onednn_input_output_only_quint8_dtype_config]) ->
  let backend_config := evalState get_onednn_backend_config onednn_globals in
  name backend_config = "onednn"
  /\ configs backend_config <> []
  /\ (exists c, In c (configs backend_config)
                /\ In c (_get_conv_configs [onednn_weighted_op_int8_dtype_config]))
  /\ (exists c, In c (configs backend_config)
                /\ linear_pattern (cfg_pattern c) = true)
  /\ (exists c, In c (configs backend_config)
                /\ In c (_get_binary_op_configs [onednn_op_quint8_dtype_config]))
  /\ (exists c, In c (configs backend_config)
                /\ (In c (_get_bn_configs [onednn_op_quint8_dtype_config])
                    \/ In c (_get_ln_configs
                               [onednn_input_output_only_quint8_dtype_config]))).
Proof.
  intros Hconv Hbin Hnorm. unfold evalState.
  rewrite get_onednn_backend_config_run. cbn [fst name configs].
  assert (Hlin : In (mkBackendPatternConfig
                       (PTuple [nn_Linear; nn_BatchNorm1d; nn_LeakyReLU])
                       OUTPUT_USE_DIFFERENT_OBSERVER_AS_INPUT
                       [onednn_weighted_op_int8_dtype_config;
                        onednn_dynamic_int8_dtype_config]
                       None None (Some nni_LinearLeakyReLU)
                       (Some fuser_fuse_linear_bn_leaky_relu))
                    (linear_configs onednn_globals)).
  { cbn [linear_configs onednn_globals]. rewrite extend_linear_configs_exec.
    apply in_or_app. right. apply in_or_app. right. apply in_or_app. left.
    now left. }
  cbn [conv_configs binary_op_dtype_configs default_op_dtype_configs
       layer_norm_op_dtype_configs onednn_globals] in *.
  split; [reflexivity|]. split.
  { intros E. apply app_eq_nil in E. destruct E as [_ E].
    apply app_eq_nil in E. destruct E as [E _].
    rewrite E in Hlin. exact Hlin. }
  split.
  { destruct (_get_conv_configs [onednn_weighted_op_int8_dtype_config])
      as [|c rest] eqn:E; [now elim Hconv|].
    exists c. split; now left. }
  split.
  { eexists. split.
    - apply in_or_app. right. apply in_or_app. left. exact Hlin.
    - reflexivity. }
  split.
  { destruct (_get_binary_op_configs [onednn_op_quint8_dtype_config])
      as [|c rest] eqn:E; [now elim Hbin|].
    exists c. split; [|now left].
    do 2 (apply in_or_app; right). apply in_or_app. left. now left. }
  destruct Hnorm as [Hbn | Hln].
  - destruct (_get_bn_configs [onednn_op_quint8_dtype_config])
      as [|c rest] eqn:E; [now elim Hbn|].
    exists c. split; [|left; now left].
    do 7 (apply in_or_app; right). apply in_or_app. left. now left.
  - destruct (_get_ln_configs [onednn_input_output_only_quint8_dtype_config])
      as [|c rest] eqn:E; [now elim Hln|].
    exists c. split; [|right; now left].
    do 8 (apply in_or_app; right). apply in_or_app. left. now left.
Qed.

End BackendConfigs.

Lemma get_onednn_backend_config_contents_witness :
  let backend_config :=
    evalState (@get_onednn_backend_config sample_config_utils)
      (@onednn_globals sample_config_utils) in
  name backend_config = "onednn"
  /\ length (configs backend_config) = 22
  /\ In (one_config "torch.nn.Conv2d" [onednn_weighted_op_int8_dtype_config])
       (configs backend_config)
  /\ (exists c, In c (configs backend_config)
                /\ linear_pattern (cfg_pattern c) = true).
Proof.
  assert (H := @get_onednn_backend_config_contents sample_config_utils).
  cbn in H.
  specialize (H ltac:(discriminate) ltac:(discriminate)
                ltac:(left; discriminate)).
  destruct H as [Hn [_ [_ [Hl _]]]].
  cbv zeta. split; [exact Hn|]. split; [reflexivity|].
  split; [now left|]. exact Hl.
Defined.

(* ===================================================================== *)
(** ** The fuser method: every run, case by case                          *)
(* ===================================================================== *)

Lemma mode_test_true (linear bn leaky_relu : Module) :
  Bool.eqb (training linear) (training bn)
  && Bool.eqb (training bn) (training leaky_relu) = true ->
  same_mode linear bn leaky_relu.
Proof.
  unfold same_mode.
  destruct (training linear), (training bn), (training leaky_relu);
    cbn; intros H; try discriminate H; now split.
Qed.

Lemma mode_test_false (linear bn leaky_relu : Module) :
  Bool.eqb (training linear) (training bn)
  && Bool.eqb (training bn) (training leaky_relu) = false ->
  ~ same_mode linear bn leaky_relu.
Proof.
  intros H S. rewrite (same_mode_test S) in H. discriminate H.
Qed.

Section FuserMethodRuns.

Context `{FU : FusionUtils}.

Variables linear bn leaky_relu : Module.

(** The six ways a call can go. *)
Lemma fuse_cases (is_qat : bool) :
  (~ same_mode linear bn leaky_relu
   /\ _fuse_linear_bn_leaky_relu is_qat linear bn leaky_relu
      = {| calls := [];
           outcome := Raise (AssertionError
             "Linear, BN and LeakyReLU all must be in the same mode (train or eval).") |})
  \/ (same_mode linear bn leaky_relu /\ is_qat = true
      /\ _fuse_linear_bn_leaky_relu is_qat linear bn leaky_relu
         = {| calls := [];
              outcome := Raise (NotImplementedError
                                  (format "Cannot fuse train modules: {}"
                                     (str_tuple3 linear bn leaky_relu))) |})
  \/ (same_mode linear bn leaky_relu /\ is_qat = false
      /\ type linear <> nn_Linear
      /\ _fuse_linear_bn_leaky_relu is_qat linear bn leaky_relu
         = {| calls := [];
              outcome := Raise (NotImplementedError
                                  (format "Cannot fuse eval modules: {}"
                                     (str_tuple3 linear bn leaky_relu))) |})
  \/ (same_mode linear bn leaky_relu /\ is_qat = false
      /\ type linear = nn_Linear
      /\ exists e : Exception,
           fuse_linear_bn_eval linear bn = Raise e
           /\ _fuse_linear_bn_leaky_relu is_qat linear bn leaky_relu
              = {| calls := [call_fuse_linear_bn_eval linear bn];
                   outcome := Raise e |})
  \/ (same_mode linear bn leaky_relu /\ is_qat = false
      /\ type linear = nn_Linear
      /\ exists (fused_linear : Module) (e : Exception),
           fuse_linear_bn_eval linear bn = Return fused_linear
           /\ fused_module_init nni_LinearLeakyReLU [fused_linear; leaky_relu]
              = Raise e
           /\ _fuse_linear_bn_leaky_relu is_qat linear bn leaky_relu
              = {| calls := [call_fuse_linear_bn_eval linear bn;
                             call_class nni_LinearLeakyReLU
                               [fused_linear; leaky_relu]];
                   outcome := Raise e |})
  \/ (same_mode linear bn leaky_relu /\ is_qat = false
      /\ type linear = nn_Linear
      /\ exists fused_linear : Module,
           fuse_linear_bn_eval linear bn = Return fused_linear
           /\ fused_module_init nni_LinearLeakyReLU [fused_linear; leaky_relu]
              = Return tt
           /\ _fuse_linear_bn_leaky_relu is_qat linear bn leaky_relu
              = {| calls := [call_fuse_linear_bn_eval linear bn;
                             call_class nni_LinearLeakyReLU
                               [fused_linear; leaky_relu]];
                   outcome := Return
                     {| instance_class := nni_LinearLeakyReLU;
                        instance_args := [fused_linear; leaky_relu] |} |}).
Proof.
  destruct (Bool.eqb (training linear) (training bn)
            && Bool.eqb (training bn) (training leaky_relu)) eqn:T.
  - apply mode_test_true in T. right.
    destruct is_qat.
    + left. split; [exact T|]. split; [reflexivity|]. apply (fuse_qat T).
    + right. destruct (PyObj_eq_dec (type linear) nn_Linear) as [E|N].
      * right.
        assert (HS : dict_get map_to_fused_module_eval (type linear)
                     = Some nni_LinearLeakyReLU) by (now rewrite E).
        assert (R := fuse_registered T HS).
        destruct (fuse_linear_bn_eval linear bn) as [fl|e] eqn:F.
        -- right.
           destruct (fused_module_init nni_LinearLeakyReLU [fl; leaky_relu])
             as [[]|e] eqn:I.
           ++ right. split; [exact T|]. split; [reflexivity|].
              split; [exact E|]. exists fl. now repeat split.
           ++ left. split; [exact T|]. split; [reflexivity|].
              split; [exact E|]. exists fl, e. now repeat split.
        -- left. split; [exact T|]. split; [reflexivity|].
           split; [exact E|]. exists e. now split.
      * left. split; [exact T|]. split; [reflexivity|]. split; [exact N|].
        apply (fuse_unregistered T). now apply dict_get_fused_none.
  - left. split; [now apply mode_test_false|].
    unfold _fuse_linear_bn_leaky_relu. rewrite T. reflexivity.
Qed.

(** X1: a call returns a module only when the three modules are in one
    mode, [is_qat] is false, the type of [linear] is [nn.Linear] itself
    and the fold utility returned; the module is then the
    [nni.LinearLeakyReLU] instance on the folded layer and [leaky_relu]. *)
Theorem fuse_returns_only_if (is_qat : bool) (fm : Instance) :
  outcome (_fuse_linear_bn_leaky_relu is_qat linear bn leaky_relu)
  = Return fm ->
  same_mode linear bn leaky_relu
  /\ is_qat = false
  /\ type linear = nn_Linear
  /\ exists fused_linear : Module,
       fuse_linear_bn_eval linear bn = Return fused_linear
       /\ fm = {| instance_class := nni_LinearLeakyReLU;
                  instance_args := [fused_linear; leaky_relu] |}.
Proof.
  intros H.
  destruct (fuse_cases is_qat)
    as [[_ R]|[[_ [_ R]]|[[_ [_ [_ R]]]|[[_ [_ [_ [e [_ R]]]]]
        |[[_ [_ [_ [fl' [e [_ [_ R]]]]]]]|[S [Q [T [fl [F [_ R]]]]]]]]]]];
    rewrite R in H; cbn in H; try discriminate H.
  injection H as <-.
  split; [exact S|]. split; [exact Q|]. split; [exact T|].
  exists fl. now split.
Qed.

(** X2: a call reaches no code outside the file exactly when the modes
    differ, or [is_qat] is set, or the type of [linear] is not
    [nn.Linear] itself. *)
Theorem fuse_no_call_iff (is_qat : bool) :
  calls (_fuse_linear_bn_leaky_relu is_qat linear bn leaky_relu) = []
  <-> (~ same_mode linear bn leaky_relu
       \/ is_qat = true
       \/ type linear <> nn_Linear).
Proof.
  destruct (fuse_cases is_qat)
    as [[M R]|[[S [Q R]]|[[S [Q [N R]]]|[[S [Q [T [e [_ R]]]]]
        |[[S [Q [T [fl [e [_ [_ R]]]]]]]|[S [Q [T [fl [_ [_ R]]]]]]]]]]];
    rewrite R; cbn [calls]; split; intros H; try reflexivity; try discriminate H.
  - now left.
  - right. now left.
  - right. now right.
  - destruct H as [H|[H|H]];
      [now elim H | rewrite Q in H; discriminate H | now elim H].
  - destruct H as [H|[H|H]];
      [now elim H | rewrite Q in H; discriminate H | now elim H].
  - destruct H as [H|[H|H]];
      [now elim H | rewrite Q in H; discriminate H | now elim H].
Qed.

(** X3: the calls a run makes to code outside the file: none, and the
    run ends in an exception; or the fold utility once, on [linear] and
    [bn] as given, when it raises, and its exception ends the run; or
    that call followed by one call of [nni.LinearLeakyReLU] on the folded
    layer and [leaky_relu], which either raises, ending the run, or
    gives the instance the run returns. *)
Theorem fuse_call_order (is_qat : bool) :
  let run := _fuse_linear_bn_leaky_relu is_qat linear bn leaky_relu in
  (calls run = [] /\ exists e : Exception, outcome run = Raise e)
  \/ (exists e : Exception,
        fuse_linear_bn_eval linear bn = Raise e
        /\ calls run = [call_fuse_linear_bn_eval linear bn]
        /\ outcome run = Raise e)
  \/ (exists (fused_linear : Module) (e : Exception),
        fuse_linear_bn_eval linear bn = Return fused_linear
        /\ fused_module_init nni_LinearLeakyReLU [fused_linear; leaky_relu]
           = Raise e
        /\ calls run = [call_fuse_linear_bn_eval linear bn;
                        call_class nni_LinearLeakyReLU
                          [fused_linear; leaky_relu]]
        /\ outcome run = Raise e)
  \/ (exists fused_linear : Module,
        fuse_linear_bn_eval linear bn = Return fused_linear
        /\ fused_module_init nni_LinearLeakyReLU [fused_linear; leaky_relu]
           = Return tt
        /\ calls run = [call_fuse_linear_bn_eval linear bn;
                        call_class nni_LinearLeakyReLU
                          [fused_linear; leaky_relu]]
        /\ outcome run
           = Return {| instance_class := nni_LinearLeakyReLU;
                       instance_args := [fused_linear; leaky_relu] |}).
Proof.
  cbv zeta.
  destruct (fuse_cases is_qat)
    as [[M R]|[[S [Q R]]|[[S [Q [N R]]]|[[S [Q [T [e [F R]]]]]
        |[[S [Q [T [fl [e [F [I R]]]]]]]|[S [Q [T [fl [F [I R]]]]]]]]]]];
    rewrite R; cbn [calls outcome].
  - left. split; [reflexivity | eexists; reflexivity].
  - left. split; [reflexivity | eexists; reflexivity].
  - left. split; [reflexivity | eexists; reflexivity].
  - right. left. exists e. now repeat split.
  - right. right. left. exists fl, e. now repeat split.
  - right. right. right. exists fl. now repeat split.
Qed.

(** X4: with [is_qat] set a call never returns a module and never calls
    the fold utility: it ends in the mode assertion error or in
    [NotImplementedError] with the train message. *)
Theorem fuse_qat_never_returns :
  _fuse_linear_bn_leaky_relu true linear bn leaky_relu
  = {| calls := [];
       outcome := Raise (NotImplementedError
                           ("Cannot fuse train modules: "
                            ++ str_tuple3 linear bn leaky_relu)%string) |}
  \/ _fuse_linear_bn_leaky_relu true linear bn leaky_relu
     = {| calls := [];
          outcome := Raise (AssertionError
            "Linear, BN and LeakyReLU all must be in the same mode (train or eval).") |}.
Proof.
  destruct (fuse_cases true)
    as [[M R]|[[S [Q R]]|[[S [Q _]]|[[S [Q _]]|[[S [Q _]]|[S [Q _]]]]]]];
    try discriminate Q.
  - right. exact R.
  - left. rewrite R, format_train. reflexivity.
Qed.

End FuserMethodRuns.

Lemma fuse_returns_only_if_witness :
  outcome (@_fuse_linear_bn_leaky_relu spec_fusion_utils false
             (eval m1) (eval b1) (eval lr))
  = Return {| instance_class := nni_LinearLeakyReLU;
              instance_args := [eval m1; eval lr] |}
  /\ same_mode (eval m1) (eval b1) (eval lr)
  /\ type (eval m1) = nn_Linear.
Proof.
  split; [reflexivity|].
  destruct (@fuse_returns_only_if spec_fusion_utils
              (eval m1) (eval b1) (eval lr) false
              {| instance_class := nni_LinearLeakyReLU;
                 instance_args := [eval m1; eval lr] |} eq_refl)
    as [S [_ [T _]]].
  split; [exact S | exact T].
Defined.

(** X5: on the paths that do not reach the fold utility ([is_qat] set,
    or a type of [linear] other than [nn.Linear]) the result depends on
    the modules only through their printed form: the types of [bn] and
    [leaky_relu], and whether the common mode is train or eval, change
    nothing. *)
Theorem fuse_error_depends_on_repr `{FU : FusionUtils} (is_qat : bool)
    (linear bn leaky_relu linear' bn' leaky_relu' : Module) :
  same_mode linear bn leaky_relu ->
  same_mode linear' bn' leaky_relu' ->
  is_qat = true \/ (type linear <> nn_Linear /\ type linear' <> nn_Linear) ->
  repr linear = repr linear' ->
  repr bn = repr bn' ->
  repr leaky_relu = repr leaky_relu' ->
  _fuse_linear_bn_leaky_relu is_qat linear bn leaky_relu
  = _fuse_linear_bn_leaky_relu is_qat linear' bn' leaky_relu'.
Proof.
  intros S S' H Rl Rb Rr.
  assert (E : str_tuple3 linear bn leaky_relu
              = str_tuple3 linear' bn' leaky_relu')
    by (unfold str_tuple3; now rewrite Rl, Rb, Rr).
  destruct is_qat.
  - rewrite (fuse_qat S), (fuse_qat S'), E. reflexivity.
  - destruct H as [H|[N N']]; [discriminate H|].
    rewrite (fuse_unregistered S (proj2 (dict_get_fused_none _) N)).
    rewrite (fuse_unregistered S' (proj2 (dict_get_fused_none _) N')).
    now rewrite E.
Qed.

Lemma fuse_error_depends_on_repr_witness :
  @_fuse_linear_bn_leaky_relu spec_fusion_utils true m1 b1 lr
  = @_fuse_linear_bn_leaky_relu spec_fusion_utils true
      (eval m1) (eval b1) (eval lr).
Proof.
  apply (@fuse_error_depends_on_repr spec_fusion_utils true
           m1 b1 lr (eval m1) (eval b1) (eval lr)).
  - unfold same_mode; cbn; now split.
  - unfold same_mode; cbn; now split.
  - now left.
  - reflexivity.
  - reflexivity.
  - reflexivity.
Defined.

(* ===================================================================== *)
(** ** The eltwise expansion helper: what the five descriptors hold       *)
(* ===================================================================== *)

Section EltwiseDescriptors.

Variables root_module root_op post_module post_op : PyObj.
Variable dtype_configs : list DTypeConfig.
Variable fuser_method : FuserMethod.
Variable fused_module : PyObj.
Variable observation_type : ObservationType.
Variable ref_quant_module : PyObj.

Lemma add_eltwise_new (configs : list BackendPatternConfig) :
  skipn (length configs)
    (execState
       (_add_eltwise_fusion_configs root_module root_op post_module post_op
          dtype_configs fuser_method fused_module observation_type
          ref_quant_module)
       configs)
  = eltwise_descriptors root_module root_op post_module post_op
      dtype_configs fuser_method fused_module observation_type
      ref_quant_module.
Proof.
  rewrite add_eltwise_exec, skipn_app, Nat.sub_diag, skipn_all. reflexivity.
Qed.

(** X6: the five patterns one call registers are pairwise different
    exactly when the base module differs from the base function and the
    post-op module differs from the post-op function. *)
Theorem add_eltwise_patterns_distinct_iff
    (configs : list BackendPatternConfig) :
  NoDup (map cfg_pattern
           (skipn (length configs)
              (execState
                 (_add_eltwise_fusion_configs root_module root_op
                    post_module post_op dtype_configs fuser_method
                    fused_module observation_type ref_quant_module)
                 configs)))
  <-> (root_module <> root_op /\ post_module <> post_op).
Proof.
  rewrite add_eltwise_new. cbn. split.
  - intros H. apply NoDup_cons_iff in H. destruct H as [H _].
    split; intros E; apply H; rewrite E; cbn; tauto.
  - intros [Hr Hp].
    repeat (apply NoDup_cons;
            [cbn; intros H;
             repeat (destruct H as [H|H];
                     [try discriminate H; injection H; intros; congruence|]);
             exact H|]).
    apply NoDup_nil.
Qed.


End EltwiseDescriptors.

(** X8: two calls in a row on one collection, each with its own
    arguments, append ten descriptors: the five of the first call, then
    the five of the second, after the prior elements. *)
Theorem add_eltwise_twice
    (root_module root_op post_module post_op : PyObj)
    (dtype_configs : list DTypeConfig) (fuser_method : FuserMethod)
    (fused_module : PyObj) (observation_type : ObservationType)
    (ref_quant_module : PyObj)
    (root_module' root_op' post_module' post_op' : PyObj)
    (dtype_configs' : list DTypeConfig) (fuser_method' : FuserMethod)
    (fused_module' : PyObj) (observation_type' : ObservationType)
    (ref_quant_module' : PyObj)
    (configs : list BackendPatternConfig) :
  let first :=
    _add_eltwise_fusion_configs root_module root_op post_module post_op
      dtype_configs fuser_method fused_module observation_type
      ref_quant_module in
  let second :=
    _add_eltwise_fusion_configs root_module' root_op' post_module' post_op'
      dtype_configs' fuser_method' fused_module' observation_type'
      ref_quant_module' in
  execState (first ;; second) configs
  = configs
    ++ skipn (length configs) (execState first configs)
    ++ skipn (length configs) (execState second configs)
  /\ execState (first ;; second) configs
     = execState second (execState first configs)
  /\ length (execState (first ;; second) configs) = length configs + 10.
Proof.
  cbv zeta. rewrite !add_eltwise_new.
  assert (E : forall (a b : state (list BackendPatternConfig) unit) l,
             execState (a ;; b) l = execState b (execState a l)).
  { intros a b l. unfold execState. cbn. now destruct (runState a l). }
  rewrite E, !add_eltwise_exec, <- app_assoc. split; [reflexivity|].
  split; [reflexivity|].
  rewrite !length_app. cbn. reflexivity.
Qed.


(* ===================================================================== *)
(** ** linear_configs after the import                                    *)
(* ===================================================================== *)

Section LinearConfigs.

Context `{U : CommonOperatorConfigUtils}.

(** The descriptors the file itself adds to [linear_configs]. *)
Lemma linear_configs_added :
  skipn
    (length (_get_linear_configs
               [onednn_weighted_op_int8_dtype_config;
                onednn_dynamic_int8_dtype_config]))
    (linear_configs onednn_globals)
  = eltwise_descriptors nn_Linear F_linear nn_LeakyReLU F_leaky_relu
      [onednn_weighted_op_int8_dtype_config; onednn_dynamic_int8_dtype_config]
      (_sequential_wrapper2 nni_LinearLeakyReLU)
      nni_LinearLeakyReLU OUTPUT_USE_DIFFERENT_OBSERVER_AS_INPUT nnqr_Linear
    ++ [mkBackendPatternConfig
          (PTuple [nn_Linear; nn_BatchNorm1d; nn_LeakyReLU])
          OUTPUT_USE_DIFFERENT_OBSERVER_AS_INPUT
          [onednn_weighted_op_int8_dtype_config;
           onednn_dynamic_int8_dtype_config]
          None None (Some nni_LinearLeakyReLU)
          (Some fuser_fuse_linear_bn_leaky_relu)]
    ++ eltwise_descriptors nn_Linear F_linear nn_Tanh torch_tanh
         [onednn_weighted_op_int8_dtype_config;
          onednn_dynamic_int8_dtype_config]
         (_sequential_wrapper2 nni_LinearTanh)
         nni_LinearTanh OUTPUT_USE_DIFFERENT_OBSERVER_AS_INPUT nnqr_Linear.
Proof.
  cbn [linear_configs onednn_globals].
  rewrite extend_linear_configs_exec, skipn_app, Nat.sub_diag, skipn_all.
  reflexivity.
Qed.

(** X9: after the import [linear_configs] is the table of
    [_get_linear_configs], unchanged and first, followed by eleven
    descriptors of the file's own; each of the eleven carries the two
    linear dtype configs, and their patterns are pairwise different. *)
Theorem linear_configs_layout :
  let table :=
    _get_linear_configs
      [onednn_weighted_op_int8_dtype_config; onednn_dynamic_int8_dtype_config] in
  let added := skipn (length table) (linear_configs onednn_globals) in
  linear_configs onednn_globals = table ++ added
  /\ length added = 11
  /\ Forall (fun c => cfg_dtype_configs c
                      = [onednn_weighted_op_int8_dtype_config;
                         onednn_dynamic_int8_dtype_config]) added
  /\ NoDup (map cfg_pattern added).
Proof.
  cbv zeta. rewrite linear_configs_added.
  split.
  { cbn [linear_configs onednn_globals].
    rewrite extend_linear_configs_exec. reflexivity. }
  split; [reflexivity|]. split.
  - cbn. repeat (apply Forall_cons; [reflexivity|]). apply Forall_nil.
  - cbn.
    repeat (apply NoDup_cons;
            [cbn; intros H;
             repeat (destruct H as [H|H]; [discriminate H|]); exact H|]).
    apply NoDup_nil.
Qed.

(** X10: among the descriptors the file adds to [linear_configs], one
    with a fuser method is on a pattern that starts with [nn.Linear] and
    declares a fused module; for the fuser [_sequential_wrapper2(X)] the
    fused module is [X], and the fuser [_fuse_linear_bn_leaky_relu] is on
    the pattern (nn.Linear, nn.BatchNorm1d, nn.LeakyReLU) alone. *)
Theorem linear_configs_fuser_entries (c : BackendPatternConfig)
    (fuser : FuserMethod) :
  In c (skipn
          (length (_get_linear_configs
                     [onednn_weighted_op_int8_dtype_config;
                      onednn_dynamic_int8_dtype_config]))
          (linear_configs onednn_globals)) ->
  cfg_fuser_method c = Some fuser ->
  (exists rest, cfg_pattern c = PTuple (nn_Linear :: rest))
  /\ (exists fused, cfg_fused_module c = Some fused)
  /\ (forall X, fuser = _sequential_wrapper2 X -> cfg_fused_module c = Some X)
  /\ (fuser = fuser_fuse_linear_bn_leaky_relu <->
      cfg_pattern c = PTuple [nn_Linear; nn_BatchNorm1d; nn_LeakyReLU]).
Proof.
  rewrite linear_configs_added. cbn. intros H F.
  repeat (destruct H as [<-|H];
          [cbn in F; try discriminate F; injection F as <-; cbn;
           (split; [eexists; reflexivity|]);
           (split; [eexists; reflexivity|]);
           (split; [intros X E; try discriminate E; now injection E as <-|]);
           split; intros E; try discriminate E; reflexivity|]).
  elim H.
Qed.

(** X11: the registration of [_fuse_linear_bn_leaky_relu] agrees with
    what the function does: a module it returns is an instance of the
    fused module its descriptor declares, and the call was on a linear
    module of the type the descriptor's pattern starts with. *)
Theorem linear_bn_registration_agrees `{FU : FusionUtils}
    (c : BackendPatternConfig) (is_qat : bool)
    (linear bn leaky_relu : Module) (fm : Instance) :
  In c (skipn
          (length (_get_linear_configs
                     [onednn_weighted_op_int8_dtype_config;
                      onednn_dynamic_int8_dtype_config]))
          (linear_configs onednn_globals)) ->
  cfg_fuser_method c = Some fuser_fuse_linear_bn_leaky_relu ->
  outcome (_fuse_linear_bn_leaky_relu is_qat linear bn leaky_relu)
  = Return fm ->
  cfg_fused_module c = Some (instance_class fm)
  /\ exists rest, cfg_pattern c = PTuple (type linear :: rest).
Proof.
  rewrite linear_configs_added. intros H F R. cbn in H.
  destruct (fuse_cases linear bn leaky_relu is_qat)
    as [[_ E]|[[_ [_ E]]|[[_ [_ [_ E]]]|[[_ [_ [_ [e [_ E]]]]]
        |[[_ [_ [_ [fl' [e [_ [_ E]]]]]]]|[_ [_ [T [fl [_ [_ E]]]]]]]]]]];
    rewrite E in R; cbn in R; try discriminate R.
  injection R as <-. rewrite T.
  repeat (destruct H as [<-|H];
          [cbn in F;
           first [discriminate F
                 | split; [reflexivity | eexists; reflexivity]]|]).
  elim H.
Qed.

End LinearConfigs.

Lemma linear_configs_fuser_entries_witness :
  cfg_fused_module
    (mkBackendPatternConfig (PTuple [nn_Linear; nn_Tanh])
       OUTPUT_USE_DIFFERENT_OBSERVER_AS_INPUT
       [onednn_weighted_op_int8_dtype_config; onednn_dynamic_int8_dtype_config]
       None None (Some nni_LinearTanh)
       (Some (_sequential_wrapper2 nni_LinearTanh)))
  = Some nni_LinearTanh.
Proof.
  refine (proj1 (proj2 (proj2
            (@linear_configs_fuser_entries sample_config_utils
               (mkBackendPatternConfig (PTuple [nn_Linear; nn_Tanh])
       OUTPUT_USE_DIFFERENT_OBSERVER_AS_INPUT
                  [onednn_weighted_op_int8_dtype_config;
                   onednn_dynamic_int8_dtype_config]
                  None None (Some nni_LinearTanh)
                  (Some (_sequential_wrapper2 nni_LinearTanh)))
               (_sequential_wrapper2 nni_LinearTanh) _ eq_refl)))
            nni_LinearTanh eq_refl).
  cbn. do 6 right. left. reflexivity.
Defined.

Lemma linear_bn_registration_agrees_witness :
  cfg_fused_module
    (mkBackendPatternConfig
       (PTuple [nn_Linear; nn_BatchNorm1d; nn_LeakyReLU])
          OUTPUT_USE_DIFFERENT_OBSERVER_AS_INPUT
       [onednn_weighted_op_int8_dtype_config; onednn_dynamic_int8_dtype_config]
       None None (Some nni_LinearLeakyReLU)
       (Some fuser_fuse_linear_bn_leaky_relu))
  = Some nni_LinearLeakyReLU.
Proof.
  refine (proj1
            (@linear_bn_registration_agrees sample_config_utils
               spec_fusion_utils
               (mkBackendPatternConfig
                  (PTuple [nn_Linear; nn_BatchNorm1d; nn_LeakyReLU])
          OUTPUT_USE_DIFFERENT_OBSERVER_AS_INPUT
                  [onednn_weighted_op_int8_dtype_config;
                   onednn_dynamic_int8_dtype_config]
                  None None (Some nni_LinearLeakyReLU)
                  (Some fuser_fuse_linear_bn_leaky_relu))
               false (eval m1) (eval b1) (eval lr)
               {| instance_class := nni_LinearLeakyReLU;
                  instance_args := [eval m1; eval lr] |} _ eq_refl eq_refl)).
  cbn. do 5 right. left. reflexivity.
Defined.
